(** * Fit Castle API: the body-recomposition recommendation endpoint

    A shallow embedding of [recommend_plan] (src/main.py, lines 123-182)
    and of the pydantic models it works on (src/schemas.py, lines 56-78),
    with the properties the specification states about them.

    Python integers are [Z]; Python floats are IEEE-754 binary64 values,
    modelled by the Standard Library's [spec_float]; strings are [string];
    the local list [plan], which the endpoint fills with [append] and then
    updates in place by index, is a [list] read and written with stdpp's
    lookup [!!] and insert [<[i:=x]>], with Python's [IndexError] written
    out; exceptions and the storage layer's state are threaded by a small
    state-and-exception monad. *)

From Stdlib Require Import ZArith QArith String List Lia.
From Stdlib Require Import Floats.SpecFloat.
From stdpp Require Import base option list strings pretty.

Local Open Scope string_scope.
Local Open Scope list_scope.
Local Open Scope Z_scope.

(** ** Python floats *)

(** A Python [float] is a binary64 value. *)
Definition float : Type := spec_float.

Module PyFloat.

Definition prec : Z := 53.
Definition emax : Z := 1024.

(** The finite values that really are binary64 numbers: canonical
    mantissa and bounded exponent. *)
Definition is_binary64 (x : float) : bool := valid_binary prec emax x.

(** [float(n)]: round to nearest, ties to even. *)
Definition of_int (n : Z) : float := binary_normalize prec emax n 0 false.

(** [bool(x)]: a float is falsy exactly when it is a zero. *)
Definition truthy (x : float) : bool :=
  match x with
  | S754_zero _ => false
  | _ => true
  end.

(** [x > n], [x >= n] and [x <= n] for an integer literal [n] that
    binary64 represents exactly (every literal of the source is below
    [2^53]), where Python's mixed comparison is the comparison with
    [float(n)]. *)
Definition gt_int (x : float) (n : Z) : bool := SFltb (of_int n) x.
Definition ge_int (x : float) (n : Z) : bool := SFleb (of_int n) x.
Definition le_int (x : float) (n : Z) : bool := SFleb x (of_int n).

(** The rational number a finite float denotes: [(-1)^s * m * 2^e]. *)
Definition to_Q (x : float) : option Q :=
  match x with
  | S754_zero _ => Some (inject_Z 0)
  | S754_finite s m e =>
      let n := if s then Z.neg m else Z.pos m in
      Some match e with
           | Z0 => inject_Z n
           | Z.pos p => inject_Z (n * Z.pos (2 ^ p))
           | Z.neg p => Qmake n (2 ^ p)
           end
  | S754_infinity _ | S754_nan => None
  end.

(** [x] is a number, and that number is greater than the integer [n]. *)
Definition above (n : Z) (x : float) : Prop :=
  exists q, to_Q x = Some q /\ (inject_Z n < q)%Q.

End PyFloat.

(** ** The pydantic models (src/schemas.py) *)

(** [class BodyMetric(BaseModel)], lines 56-67. The [Literal] fields are
    strings: the endpoint compares them with string literals. *)
Record BodyMetric : Type := {
  gender : string;
  age : Z;
  height_cm : float;
  weight_kg : float;
  waist_cm : option float;
  hip_cm : option float;
  neck_cm : option float;
  body_fat_pct : option float;
  activity_level : string;
  goal : string;
  member_id : option string
}.

(** [class ExerciseItem(BaseModel)], lines 69-73. *)
Record ExerciseItem : Type := {
  name : string;
  sets : Z;
  reps : string;
  frequency_per_week : Z
}.

(** [class Recommendation(BaseModel)], lines 75-78. *)
Record Recommendation : Type := {
  body_metric_id : option string;
  summary : string;
  weekly_plan : list ExerciseItem
}.

(** *** Validation: what pydantic accepts as a [BodyMetric] *)

(** [Literal[...]]: the value is one of the listed strings. *)
Definition literal (allowed : list string) (s : string) : bool :=
  existsb (String.eqb s) allowed.

(** [float = Field(..., ge=lo, le=hi)]. The comparisons reject a NaN and
    the infinities. *)
Definition float_field (lo hi : Z) (x : float) : bool :=
  PyFloat.is_binary64 x && PyFloat.ge_int x lo && PyFloat.le_int x hi.

(** [Optional[float] = Field(None, ge=lo, le=hi)]. *)
Definition optional_float_field (lo hi : Z) (x : option float) : bool :=
  match x with
  | None => true
  | Some v => float_field lo hi v
  end.

Definition valid_BodyMetric (m : BodyMetric) : bool :=
  literal ["male"; "female"] (gender m)
  && ((12 <=? age m) && (age m <=? 90))
  && float_field 120 230 (height_cm m)
  && float_field 30 250 (weight_kg m)
  && optional_float_field 40 200 (waist_cm m)
  && optional_float_field 40 200 (hip_cm m)
  && optional_float_field 20 60 (neck_cm m)
  && optional_float_field 3 60 (body_fat_pct m)
  && literal ["sedentary"; "light"; "moderate"; "active"; "athlete"] (activity_level m)
  && literal ["fat_loss"; "muscle_gain"; "recomp"] (goal m).

(** ** Exceptions and the outcome of an endpoint *)

(** The instances of Python's [Exception] that can arise here: the
    [IndexError] of a list subscript, and whatever the storage layer
    raises. Both [except Exception] clauses of the endpoint catch these;
    what is not an [Exception] ([KeyboardInterrupt], [SystemExit]) is
    outside this model. *)
Inductive Exception : Type :=
  | IndexError (msg : string)
  | StorageException (msg : string).

(** [str(e)]. *)
Definition str (e : Exception) : string :=
  match e with
  | IndexError msg => msg
  | StorageException msg => msg
  end.

(** An endpoint either returns its value or raises
    [HTTPException(status_code, detail)]. *)
Inductive Outcome (A : Type) : Type :=
  | Returned (a : A)
  | HTTPException (status_code : Z) (detail : string).

Arguments Returned {A} a.
Arguments HTTPException {A} status_code detail.

(** What the endpoint hands to [create_document]: a model instance, or
    the dictionary built on line 176. *)
Inductive Document : Type :=
  | BodyMetricDoc (metrics : BodyMetric)
  | RecommendationDoc (body_metric_id : string) (summary : string)
                      (weekly_plan : list ExerciseItem).

(** ** A monad for the endpoint's body

    The body of [recommend_plan] reads and writes the local list [plan],
    calls the storage layer, and may raise. A computation takes the
    current environment and gives the new one with either the exception
    raised or the value computed; the environment is kept in both cases,
    as Python keeps the effects that happened before an exception. *)

Section Endpoint.

(** The state of the storage layer (module [database], not part of
    the sources that are modelled here). *)
Context {Store : Type}.

Record Env : Type := {
  plan : list ExerciseItem;
  store : Store
}.

Definition Py (A : Type) : Type := Env -> Env * (Exception + A).

Definition ret {A} (a : A) : Py A := fun env => (env, inr a).

Definition raise {A} (e : Exception) : Py A := fun env => (env, inl e).

Definition bind {A B} (c : Py A) (k : A -> Py B) : Py B :=
  fun env =>
    match c env with
    | (env', inl e) => (env', inl e)
    | (env', inr a) => k a env'
    end.

(** [try: c  except Exception as e: handler(e)]. *)
Definition try_except {A} (c : Py A) (handler : Exception -> Py A) : Py A :=
  fun env =>
    match c env with
    | (env', inl e) => handler e env'
    | (env', inr a) => (env', inr a)
    end.

Notation "x <- c ;; k" := (bind c (fun x => k))
  (at level 90, c at next level, right associativity).
Notation "c ;;; k" := (bind c (fun _ => k))
  (at level 90, right associativity).

(** [for x in xs: body(x)]. *)
Fixpoint for_in {A} (xs : list A) (body : A -> Py unit) : Py unit :=
  match xs with
  | [] => ret tt
  | x :: xs' => body x ;;; for_in xs' body
  end.

(** [range(n)]. *)
Definition range (n : nat) : list nat := seq 0 n.

(** *** The operations on [plan] *)

(** [plan.append(item)]. *)
Definition plan_append (item : ExerciseItem) : Py unit :=
  fun env => ({| plan := plan env ++ [item]; store := store env |}, inr tt).

(** [len(plan)]. *)
Definition plan_len : Py nat := fun env => (env, inr (length (plan env))).

(** [plan[i]], for [i >= 0]: an index past the end raises. *)
Definition plan_getitem (i : nat) : Py ExerciseItem :=
  fun env =>
    match plan env !! i with
    | Some item => ret item env
    | None => raise (IndexError "list index out of range") env
    end.

(** [plan[i].frequency_per_week = v]: the subscript is evaluated (and
    may raise), then the attribute of that item is set. *)
Definition plan_set_frequency_per_week (i : nat) (v : Z) : Py unit :=
  item <- plan_getitem i ;;
  fun env =>
    ({| plan := <[i := {| name := name item; sets := sets item;
                          reps := reps item; frequency_per_week := v |}]> (plan env);
        store := store env |}, inr tt).

(** *** The storage layer *)

(** [create_document(collection_name, data)] of module [database]:
    any function of the store that returns an id or raises. *)
Variable create_document :
  string -> Document -> Store -> Store * (Exception + string).

Definition call_create_document (collection_name : string) (data : Document)
  : Py string :=
  fun env =>
    let '(st, r) := create_document collection_name data (store env) in
    ({| plan := plan env; store := st |}, r).

(** ** [recommend_plan] (src/main.py, lines 123-182) *)

(** Lines 138-139, the local function [add]. The constructor of
    [ExerciseItem] validates its arguments; every call below passes a
    string, an integer, a string and an integer, which it accepts. *)
Definition add (name : string) (sets : Z) (reps : string) (freq : Z) : Py unit :=
  plan_append {| name := name; sets := sets; reps := reps;
                 frequency_per_week := freq |}.

(** Lines 141-153: the base plan is chosen by [goal]. *)
Definition select_base_plan (goal : string) : Py unit :=
  if (goal =? "fat_loss")%string then
    add "Treadmill Intervals" 6 "1 min fast / 2 min easy" 3 ;;;
    add "Full-Body Circuit" 4 "12-15 reps" 2 ;;;
    add "Core Stability" 3 "12-15 reps" 2
  else if (goal =? "muscle_gain")%string then
    add "Barbell Squat" 5 "5-8 reps" 2 ;;;
    add "Bench Press" 5 "5-8 reps" 2 ;;;
    add "Deadlift" 3 "3-5 reps" 1 ;;;
    add "Accessory (Rows, Press, Pull-ups)" 4 "8-12 reps" 2
  else
    add "Upper/Lower Split Strength" 4 "6-10 reps" 3 ;;;
    add "Zone 2 Cardio" 1 "30-40 mins" 2 ;;;
    add "Mobility & Core" 3 "10-15 reps" 2.

(** Line 158, the body of the first loop. *)
Definition decrease_frequency (i : nat) : Py unit :=
  item <- plan_getitem i ;;
  plan_set_frequency_per_week i (Z.max 1 (frequency_per_week item - 1)).

(** Line 161, the body of the second loop. *)
Definition increase_frequency (i : nat) : Py unit :=
  item <- plan_getitem i ;;
  plan_set_frequency_per_week i (frequency_per_week item + 1).

(** Lines 155-161: the frequencies are adjusted by activity level. *)
Definition adjust_frequency (activity : string) : Py unit :=
  if literal ["sedentary"; "light"] activity then
    n <- plan_len ;;
    for_in (range n) decrease_frequency
  else if literal ["athlete"] activity then
    n <- plan_len ;;
    for_in (range n) increase_frequency
  else
    ret tt.

Definition base_summary : string :=
  "Personalized plan generated based on your goal and activity level.".

Definition fat_loss_suffix : string :=
  " Focus on sustainable deficit, prioritize sleep and steps.".

(** Line 164, the condition [bf and goal == "fat_loss" and bf > 25]:
    [None] and a zero are falsy. *)
Definition suffix_condition (bf : option float) (goal : string) : bool :=
  match bf with
  | None => false
  | Some x =>
      PyFloat.truthy x && (goal =? "fat_loss")%string && PyFloat.gt_int x 25
  end.

(** Lines 163-165. *)
Definition build_summary (bf : option float) (goal : string) : string :=
  let summary := base_summary in
  if suffix_condition bf goal then summary +:+ fat_loss_suffix else summary.

(** Lines 173-178: metrics and recommendation are stored, and any
    exception of the storage layer is dropped. *)
Definition store_best_effort (metrics : BodyMetric) (rec : Recommendation)
  : Py unit :=
  try_except
    (mid <- call_create_document "bodymetric" (BodyMetricDoc metrics) ;;
     call_create_document "recommendation"
       (RecommendationDoc mid (summary rec) (weekly_plan rec)) ;;;
     ret tt)
    (fun _ => ret tt).

(** Lines 126-180, the body of the outer [try]. *)
Definition recommend_plan_body (metrics : BodyMetric) : Py Recommendation :=
  let goal := goal metrics in
  let activity := activity_level metrics in
  let bf := body_fat_pct metrics in
  select_base_plan goal ;;;
  adjust_frequency activity ;;;
  let summary := build_summary bf goal in
  fun env =>
    let rec := {| body_metric_id := None; summary := summary;
                  weekly_plan := plan env |} in
    (store_best_effort metrics rec ;;; ret rec) env.

(** The endpoint: [plan] starts empty (line 136), and an exception
    that leaves the body becomes [HTTPException(500, str(e))]
    (lines 181-182). *)
Definition recommend_plan (metrics : BodyMetric) (st : Store)
  : Store * Outcome Recommendation :=
  match recommend_plan_body metrics {| plan := []; store := st |} with
  | (env, inr rec) => (store env, Returned rec)
  | (env, inl e) => (store env, HTTPException 500 (str e))
  end.

End Endpoint.

(** ** Reference points for the statements *)

(** The base plan of a goal: what stage 1 leaves in an empty [plan]. *)
Definition base_plan (goal : string) : list ExerciseItem :=
  plan (fst (select_base_plan (Store := unit) goal {| plan := []; store := tt |})).

(** An item with its frequency replaced by [f] of it, the other fields kept. *)
Definition with_frequency (f : Z -> Z) (item : ExerciseItem) : ExerciseItem :=
  {| name := name item; sets := sets item; reps := reps item;
     frequency_per_week := f (frequency_per_week item) |}.

(** The change of one frequency that an activity level asks for. *)
Definition adjustment (activity : string) : Z -> Z :=
  if literal ["sedentary"; "light"] activity then fun v => Z.max 1 (v - 1)
  else if literal ["athlete"] activity then fun v => v + 1
  else fun v => v.

(** The recommendation as a function of the metrics alone. *)
Definition recommendation_of (metrics : BodyMetric) : Recommendation :=
  {| body_metric_id := None;
     summary := build_summary (body_fat_pct metrics) (goal metrics);
     weekly_plan := map (with_frequency (adjustment (activity_level metrics)))
                        (base_plan (goal metrics)) |}.

(** The request of the specification's end-to-end example. *)
Definition example_metrics : BodyMetric :=
  {| gender := "female"; age := 30;
     height_cm := PyFloat.of_int 165; weight_kg := PyFloat.of_int 70;
     waist_cm := None; hip_cm := None; neck_cm := None;
     body_fat_pct := Some (PyFloat.of_int 28);
     activity_level := "sedentary"; goal := "fat_loss"; member_id := None |}.

(** Two storage layers to run the endpoint with: one that is down, and
    one that numbers its documents. *)
Definition storage_down (collection_name : string) (data : Document) (st : unit)
  : unit * (Exception + string) :=
  (st, inl (StorageException "Database not available")).

Definition storage_counting (collection_name : string) (data : Document) (st : nat)
  : nat * (Exception + string) :=
  (S st, inr (pretty st)).

(** ** [submit_metrics] (src/main.py, lines 115-121) *)

(** The dictionary [{"ok": True, "id": _id}] that the endpoint returns. *)
Module CreatedResponse.
Record t : Type := { ok : bool; id : string }.
End CreatedResponse.

Section SubmitMetrics.

Context {Store : Type}.
Variable create_document :
  string -> Document -> Store -> Store * (Exception + string).

(** The metrics are stored; an exception of the storage layer becomes
    [HTTPException(500, str(e))]. *)
Definition submit_metrics (metrics : BodyMetric) (st : Store)
  : Store * Outcome CreatedResponse.t :=
  match create_document "bodymetric" (BodyMetricDoc metrics) st with
  | (st', inr _id) =>
      (st', Returned {| CreatedResponse.ok := true; CreatedResponse.id := _id |})
  | (st', inl e) => (st', HTTPException 500 (str e))
  end.

End SubmitMetrics.

(** ** Building a [BodyMetric] from a request (src/schemas.py, lines 56-67)

    The body of a request whose fields already have the Python type of
    their declaration. [None] is a key that is missing (or, for the
    [Optional] fields, null). *)
Record BodyMetricInput : Type := {
  in_gender : option string;
  in_age : option Z;
  in_height_cm : option float;
  in_weight_kg : option float;
  in_waist_cm : option float;
  in_hip_cm : option float;
  in_neck_cm : option float;
  in_body_fat_pct : option float;
  in_activity_level : option string;
  in_goal : option string;
  in_member_id : option string
}.

(** [Field(...)]: the field is required and checked. *)
Definition required_field {A} (check : A -> bool) (x : option A) : option A :=
  match x with
  | Some v => if check v then Some v else None
  | None => None
  end.

(** [Field(None, ...)] on an [Optional]: a value is checked, its
    absence is kept. *)
Definition optional_field {A} (check : A -> bool) (x : option A)
  : option (option A) :=
  match x with
  | Some v => if check v then Some (Some v) else None
  | None => Some None
  end.

(** A field with a default: a value is checked, and a missing one is
    replaced by the default, which pydantic takes as it is. *)
Definition defaulted_field {A} (default : A) (check : A -> bool) (x : option A)
  : option A :=
  match x with
  | Some v => if check v then Some v else None
  | None => Some default
  end.

(** The construction of a [BodyMetric] from the body of a request: the
    model, or [None] for a validation error. *)
Definition BodyMetric_validate (r : BodyMetricInput) : option BodyMetric :=
  gender ← required_field (literal ["male"; "female"]) (in_gender r);
  age ← required_field (fun a => (12 <=? a) && (a <=? 90)) (in_age r);
  height_cm ← required_field (float_field 120 230) (in_height_cm r);
  weight_kg ← required_field (float_field 30 250) (in_weight_kg r);
  waist_cm ← optional_field (float_field 40 200) (in_waist_cm r);
  hip_cm ← optional_field (float_field 40 200) (in_hip_cm r);
  neck_cm ← optional_field (float_field 20 60) (in_neck_cm r);
  body_fat_pct ← optional_field (float_field 3 60) (in_body_fat_pct r);
  activity_level ← defaulted_field "moderate"
    (literal ["sedentary"; "light"; "moderate"; "active"; "athlete"])
    (in_activity_level r);
  goal ← defaulted_field "recomp"
    (literal ["fat_loss"; "muscle_gain"; "recomp"]) (in_goal r);
  Some {| gender := gender; age := age; height_cm := height_cm;
          weight_kg := weight_kg; waist_cm := waist_cm; hip_cm := hip_cm;
          neck_cm := neck_cm; body_fat_pct := body_fat_pct;
          activity_level := activity_level; goal := goal;
          member_id := in_member_id r |}.

(** The request that spells out every field of a model. *)
Definition BodyMetric_input (m : BodyMetric) : BodyMetricInput :=
  {| in_gender := Some (gender m); in_age := Some (age m);
     in_height_cm := Some (height_cm m); in_weight_kg := Some (weight_kg m);
     in_waist_cm := waist_cm m; in_hip_cm := hip_cm m;
     in_neck_cm := neck_cm m; in_body_fat_pct := body_fat_pct m;
     in_activity_level := Some (activity_level m); in_goal := Some (goal m);
     in_member_id := member_id m |}.

(** A request with the four required fields only. *)
Definition minimal_input : BodyMetricInput :=
  {| in_gender := Some "male"; in_age := Some 41;
     in_height_cm := Some (PyFloat.of_int 180);
     in_weight_kg := Some (PyFloat.of_int 82);
     in_waist_cm := None; in_hip_cm := None; in_neck_cm := None;
     in_body_fat_pct := None; in_activity_level := None; in_goal := None;
     in_member_id := None |}.

(** ** [test_database] (src/main.py, lines 24-48) *)

(** What the health check looks at: the module-level [db] of
    [database] ([None] when it is not initialised) with the outcome of
    [db.list_collection_names()], and the two environment variables. *)
Record Deployment : Type := {
  db_list_collection_names : option (Exception + list string);
  env_DATABASE_URL : option string;
  env_DATABASE_NAME : option string
}.

(** The dictionary [response]. *)
Record TestResponse : Type := {
  backend : string;
  database : string;
  database_url : option string;
  database_name : option string;
  connection_status : string;
  collections : list string
}.

(** The truth value of [os.getenv(name)]: set and not empty. *)
Definition getenv_truthy (v : option string) : bool :=
  match v with
  | Some s => negb (s =? "")%string
  | None => false
  end.

(** A Python [str] is a sequence of code points; a [string] holds its
    UTF-8 encoding, as the literals of this file do. The bytes
    [10xxxxxx] continue a code point, every other byte starts one. *)
Definition is_continuation_byte (c : Ascii.ascii) : bool :=
  (128 <=? Ascii.nat_of_ascii c)%nat && (Ascii.nat_of_ascii c <? 192)%nat.


(** [s[:n]]: the first [n] code points, that is, the text before the
    byte that would start code point [n + 1]. *)
Fixpoint str_prefix (n : nat) (s : string) : string :=
  match s with
  | EmptyString => EmptyString
  | String c s' =>
      if is_continuation_byte c then String c (str_prefix n s')
      else match n with
           | O => EmptyString
           | S n' => String c (str_prefix n' s')
           end
  end.



(** The keys are assigned in the order of the source. Nothing between
    the two [try] lines raises outside the inner [try], so the handler
    of line 46 has no exception to handle. *)
Definition test_database (d : Deployment) : TestResponse :=
  let response :=
    {| backend := "✅ Running";
       database := "❌ Not Available";
       database_url := None;
       database_name := None;
       connection_status := "Not Connected";
       collections := [] |} in
  match db_list_collection_names d with
  | Some listing =>
      let url := if getenv_truthy (env_DATABASE_URL d)
                 then "✅ Set" else "❌ Not Set" in
      let dbname := if getenv_truthy (env_DATABASE_NAME d)
                    then "✅ Set" else "❌ Not Set" in
      match listing with
      | inr names =>
          {| backend := backend response;
             database := "✅ Connected & Working";
             database_url := Some url;
             database_name := Some dbname;
             connection_status := "Connected";
             collections := take 10 names |}
      | inl e =>
          {| backend := backend response;
             database := "⚠️ Connected but Error: " +:+ str_prefix 50 (str e);
             database_url := Some url;
             database_name := Some dbname;
             connection_status := connection_status response;
             collections := collections response |}
      end
  | None =>
      {| backend := backend response;
         database := "⚠️ Available but not initialized";
         database_url := database_url response;
         database_name := database_name response;
         connection_status := connection_status response;
         collections := collections response |}
  end.

(** A deployment whose database lists twelve collections. *)
Definition example_deployment : Deployment :=
  {| db_list_collection_names :=
       Some (inr ["a"; "b"; "c"; "d"; "e"; "f"; "g"; "h"; "i"; "j"; "k"; "l"]);
     env_DATABASE_URL := Some "mongodb://localhost:27017";
     env_DATABASE_NAME := None |}.

(** ** More reference points *)

(** A [body_fat_pct] that is a binary64 value of any kind, or absent. *)
Definition is_optional_binary64 (x : option float) : bool :=
  match x with
  | None => true
  | Some v => PyFloat.is_binary64 v
  end.

(** A storage layer that keeps what it is given, newest first, and
    refuses every recommendation. *)
Definition storage_logging (collection_name : string) (data : Document)
    (st : list (string * Document))
  : list (string * Document) * (Exception + string) :=
  if (collection_name =? "recommendation")%string
  then (st, inl (StorageException "write refused"))
  else ((collection_name, data) :: st, inr (pretty (length st))).

(** The example request with a goal outside the enumeration. *)
Definition unknown_goal_metrics : BodyMetric :=
  {| gender := "female"; age := 30;
     height_cm := PyFloat.of_int 165; weight_kg := PyFloat.of_int 70;
     waist_cm := None; hip_cm := None; neck_cm := None;
     body_fat_pct := Some (PyFloat.of_int 28);
     activity_level := "sedentary"; goal := "bulk"; member_id := None |}.

(** A request that pydantic would refuse: unknown goal and activity
    level, a NaN for the height, and an infinite body fat. *)
Definition unvalidated_metrics : BodyMetric :=
  {| gender := "other"; age := 7;
     height_cm := S754_nan; weight_kg := PyFloat.of_int 70;
     waist_cm := None; hip_cm := None; neck_cm := None;
     body_fat_pct := Some (S754_infinity false);
     activity_level := "light"; goal := "fat_loss"; member_id := None |}.

(** Another client with the goal, activity level and body fat of
    [example_metrics]. *)
Definition example_metrics_other : BodyMetric :=
  {| gender := "male"; age := 55;
     height_cm := PyFloat.of_int 190; weight_kg := PyFloat.of_int 101;
     waist_cm := Some (PyFloat.of_int 104); hip_cm := None; neck_cm := None;
     body_fat_pct := Some (PyFloat.of_int 28);
     activity_level := "sedentary"; goal := "fat_loss";
     member_id := Some "m-17" |}.

(** The model that [minimal_input] is validated to. *)
Definition minimal_metrics : BodyMetric :=
  {| gender := "male"; age := 41;
     height_cm := PyFloat.of_int 180; weight_kg := PyFloat.of_int 82;
     waist_cm := None; hip_cm := None; neck_cm := None;
     body_fat_pct := None;
     activity_level := "moderate"; goal := "recomp"; member_id := None |}.

(** ** How the stages run *)

Section EndpointFacts.

Context {Store : Type}.
Implicit Types (env : Env (Store := Store)) (l seen todo : list ExerciseItem)
               (st : Store) (f : Z -> Z).

Lemma with_frequency_id item : with_frequency (fun v => v) item = item.
Proof. by destruct item. Qed.

Lemma map_with_frequency_id l : map (with_frequency (fun v => v)) l = l.
Proof. induction l as [|item l IH]; simpl; [done|]. by rewrite with_frequency_id, IH. Qed.

(** Stage 1 appends the base plan of the goal and cannot raise. *)
Lemma select_base_plan_run goal env :
  select_base_plan goal env
  = ({| plan := plan env ++ base_plan goal; store := store env |}, inr tt).
Proof.
  unfold base_plan, select_base_plan.
  destruct (goal =? "fat_loss")%string;
    [|destruct (goal =? "muscle_gain")%string];
    unfold bind, add, plan_append; cbn; by rewrite <- !app_assoc.
Qed.

(** One pass of a loop body on an index that is in range. *)
Lemma decrease_frequency_run i env item :
  plan env !! i = Some item ->
  decrease_frequency i env
  = ({| plan := <[i := with_frequency (fun v => Z.max 1 (v - 1)) item]> (plan env);
        store := store env |}, inr tt).
Proof.
  intros Hi. unfold decrease_frequency, plan_set_frequency_per_week, bind, plan_getitem.
  rewrite Hi; cbn. by rewrite Hi.
Qed.

Lemma increase_frequency_run i env item :
  plan env !! i = Some item ->
  increase_frequency i env
  = ({| plan := <[i := with_frequency (fun v => v + 1) item]> (plan env);
        store := store env |}, inr tt).
Proof.
  intros Hi. unfold increase_frequency, plan_set_frequency_per_week, bind, plan_getitem.
  rewrite Hi; cbn. by rewrite Hi.
Qed.

(** A loop over the indices that are left, whose body rewrites the
    frequency of the item it is at: the items before the index are
    seen, the others are still to do. *)
Lemma for_in_indices_run (body : nat -> Py unit) f :
  (forall i env item,
      plan env !! i = Some item ->
      body i env
      = ({| plan := <[i := with_frequency f item]> (plan env);
            store := store env |}, inr tt)) ->
  forall todo seen st,
    for_in (seq (length seen) (length todo)) body
           {| plan := seen ++ todo; store := st |}
    = ({| plan := seen ++ map (with_frequency f) todo; store := st |}, inr tt).
Proof.
  intros Hbody todo. induction todo as [|item todo IH]; intros seen st.
  - done.
  - cbn [length seq for_in]. unfold bind.
    rewrite (Hbody _ _ item) by (by apply list_lookup_middle).
    cbn [plan store].
    rewrite insert_app_r_alt by lia. rewrite Nat.sub_diag. cbn.
    specialize (IH (seen ++ [with_frequency f item]) st).
    rewrite length_app in IH. cbn [length] in IH.
    replace (length seen + 1)%nat with (S (length seen)) in IH by lia.
    rewrite <- !app_assoc in IH. exact IH.
Qed.

Lemma for_in_range_run (body : nat -> Py unit) f l st :
  (forall i env item,
      plan env !! i = Some item ->
      body i env
      = ({| plan := <[i := with_frequency f item]> (plan env);
            store := store env |}, inr tt)) ->
  for_in (range (length l)) body {| plan := l; store := st |}
  = ({| plan := map (with_frequency f) l; store := st |}, inr tt).
Proof.
  intros Hbody. exact (for_in_indices_run body f Hbody l [] st).
Qed.

(** Stage 2 maps the adjustment of the activity level over the plan
    and cannot raise. *)
Lemma adjust_frequency_run activity env :
  adjust_frequency activity env
  = ({| plan := map (with_frequency (adjustment activity)) (plan env);
        store := store env |}, inr tt).
Proof.
  destruct env as [l st]. unfold adjust_frequency, adjustment. cbn [plan store].
  destruct (literal ["sedentary"; "light"] activity).
  - unfold bind, plan_len. cbn [plan].
    apply for_in_range_run. intros. by apply decrease_frequency_run.
  - destruct (literal ["athlete"] activity).
    + unfold bind, plan_len. cbn [plan].
      apply for_in_range_run. intros. by apply increase_frequency_run.
    + by rewrite map_with_frequency_id.
Qed.

Variable create_document :
  string -> Document -> Store -> Store * (Exception + string).

(** The best-effort save returns normally whatever the storage layer
    does, and does not touch [plan]. *)
Lemma store_best_effort_run metrics rec env :
  exists st',
    store_best_effort create_document metrics rec env
    = ({| plan := plan env; store := st' |}, inr tt).
Proof.
  unfold store_best_effort, try_except, bind, call_create_document, ret.
  destruct (create_document "bodymetric" _ (store env)) as [st1 [e|mid]]; cbn.
  - by exists st1.
  - destruct (create_document "recommendation" _ st1) as [st2 [e|rid]]; cbn;
      by exists st2.
Qed.

(** The endpoint returns [recommendation_of] its argument, for every
    storage layer and every state of it. *)
Lemma recommend_plan_run metrics st :
  snd (recommend_plan create_document metrics st)
  = Returned (recommendation_of metrics).
Proof.
  unfold recommend_plan, recommend_plan_body, bind.
  rewrite select_base_plan_run. cbn [plan store app].
  rewrite adjust_frequency_run. cbn [plan store].
  match goal with
  | |- context [store_best_effort _ ?m ?r ?e] =>
      destruct (store_best_effort_run m r e) as [st' ->]
  end.
  reflexivity.
Qed.

End EndpointFacts.

(** ** Comparing a binary64 value with 25 *)

Module PyFloatFacts.

Import PyFloat.

(** [digits2_pos m] is the number of binary digits of [m]. *)
Lemma digits2_pos_bounds (m : positive) :
  2 ^ (Z.pos (digits2_pos m) - 1) <= Z.pos m < 2 ^ Z.pos (digits2_pos m).
Proof.
  induction m as [m IH|m IH|]; cbn [digits2_pos].
  - rewrite Pos2Z.inj_succ, Z.pow_succ_r by lia.
    replace (Z.succ (Z.pos (digits2_pos m)) - 1)
      with (Z.succ (Z.pos (digits2_pos m) - 1)) by lia.
    rewrite Z.pow_succ_r by lia. lia.
  - rewrite Pos2Z.inj_succ, Z.pow_succ_r by lia.
    replace (Z.succ (Z.pos (digits2_pos m)) - 1)
      with (Z.succ (Z.pos (digits2_pos m) - 1)) by lia.
    rewrite Z.pow_succ_r by lia. lia.
  - cbn. lia.
Qed.

(** A canonical mantissa has at most 53 digits, and exactly 53 above
    the least exponent. *)
Lemma bounded_mantissa (m : positive) (e : Z) :
  bounded prec emax m e = true ->
  Z.pos m < 2 ^ 53 /\ (-1074 < e -> 2 ^ 52 <= Z.pos m).
Proof.
  unfold bounded, canonical_mantissa, fexp, SpecFloat.emin, prec, emax.
  intros [Hcanon _]%andb_true_iff. apply Z.eqb_eq in Hcanon.
  pose proof (digits2_pos_bounds m) as [Hlo Hhi].
  split.
  - eapply Z.lt_le_trans; [exact Hhi|]. apply Z.pow_le_mono_r; lia.
  - intros He. replace (Z.pos (digits2_pos m)) with 53 in Hlo by lia. exact Hlo.
Qed.

Lemma of_int_25 : of_int 25 = S754_finite false 7036874417766400 (-48).
Proof. reflexivity. Qed.

(** On the binary64 numbers (no NaN, no infinity), [x > 25] holds
    exactly when the number [x] denotes is above 25. *)
Lemma gt_int_25_finite (s : bool) (m : positive) (e : Z) :
  bounded prec emax m e = true ->
  gt_int (S754_finite s m e) 25 = true <-> above 25 (S754_finite s m e).
Proof.
  intros Hb. apply bounded_mantissa in Hb as [Hhi Hlo].
  unfold gt_int, above. rewrite of_int_25.
  unfold SFltb, SFcompare, to_Q.
  assert (H47 : 2 ^ 52 = 4503599627370496) by reflexivity.
  assert (H53 : 2 ^ 53 = 9007199254740992) by reflexivity.
  rewrite H53 in Hhi. rewrite H47 in Hlo.
  destruct s.
  - (* negative numbers *)
    split; [discriminate|]. intros (q & [= <-] & Hq). exfalso.
    destruct e as [|p|p]; unfold Qlt in Hq; cbn in Hq; lia.
  - destruct e as [|p|p].
    + (* exponent 0 *)
      cbn [Z.compare]. split; [|reflexivity]. intros _.
      eexists; split; [reflexivity|]. unfold Qlt; cbn. lia.
    + (* positive exponent *)
      cbn [Z.compare]. split; [|reflexivity]. intros _.
      eexists; split; [reflexivity|]. unfold Qlt; cbn. nia.
    + (* negative exponent: the value is [m / 2^p] *)
      assert (Hval : (exists q, Some (Z.pos m # 2 ^ p) = Some q /\ (inject_Z 25 < q)%Q)
                     <-> 25 * 2 ^ Z.pos p < Z.pos m).
      { split.
        - intros (q & [= <-] & Hq). unfold Qlt in Hq.
          cbn [Qnum Qden inject_Z] in Hq. rewrite Pos2Z.inj_pow in Hq. lia.
        - intros Hq. exists (Z.pos m # 2 ^ p). split; [exact eq_refl|].
          unfold Qlt. cbn [Qnum Qden inject_Z]. rewrite Pos2Z.inj_pow. lia. }
      etransitivity; [|symmetry; exact Hval]. clear Hval.
      remember (2 ^ Z.pos p) as pw eqn:Hpw.
      destruct (Z.compare_spec (-48) (Z.neg p)) as [Heq|Hlt|Hgt].
      * (* the exponent of 25 itself: the mantissas decide *)
        injection Heq as <-.
        assert (pw = 281474976710656) as -> by (rewrite Hpw; exact eq_refl).
        change (Pos.compare_cont Eq 7036874417766400 m)
          with (7036874417766400 ?= m)%positive.
        destruct (Pos.compare_spec 7036874417766400 m) as [Hm|Hm|Hm].
        -- subst m. split; [discriminate|]. intros Hq. lia.
        -- apply Pos2Z.pos_lt_pos in Hm. split; [|intros _; exact eq_refl].
           intros _. lia.
        -- apply Pos2Z.pos_lt_pos in Hm. split; [discriminate|]. intros Hq. lia.
      * (* a larger exponent: the value is at least 32 *)
        split; [|intros _; exact eq_refl]. intros _.
        assert (pw <= 2 ^ 47) by (rewrite Hpw; apply Z.pow_le_mono_r; lia).
        assert (2 ^ 47 = 140737488355328) by exact eq_refl.
        specialize (Hlo ltac:(lia)). lia.
      * (* a smaller exponent: the value is below 16 *)
        split; [discriminate|]. intros Hq.
        assert (2 ^ 49 <= pw) by (rewrite Hpw; apply Z.pow_le_mono_r; lia).
        assert (2 ^ 49 = 562949953421312) by exact eq_refl.
        lia.
Qed.

(** A float that pydantic accepts for [body_fat_pct] is neither a NaN
    nor an infinity, so the same holds for every accepted value. *)
Lemma gt_int_25_field (x : float) :
  float_field 3 60 x = true ->
  gt_int x 25 = true <-> above 25 x.
Proof.
  unfold float_field, is_binary64. intros Hf.
  apply andb_true_iff in Hf as [Hf Hle]. apply andb_true_iff in Hf as [Hvalid Hge].
  destruct x as [s|s| |s m e].
  - discriminate Hge.
  - destruct s; [discriminate Hge|discriminate Hle].
  - discriminate Hge.
  - apply gt_int_25_finite. exact Hvalid.
Qed.

Lemma field_truthy (x : float) : float_field 3 60 x = true -> truthy x = true.
Proof.
  unfold float_field. intros Hf.
  apply andb_true_iff in Hf as [Hf _]. apply andb_true_iff in Hf as [_ Hge].
  destruct x; [discriminate Hge|exact eq_refl..].
Qed.

End PyFloatFacts.

(** ** The condition of the summary suffix *)

(** For an accepted [body_fat_pct], line 164 tests that the goal is
    fat loss and that the value is there and above 25. *)
Lemma suffix_condition_iff (bf : option float) (goal : string) :
  optional_float_field 3 60 bf = true ->
  suffix_condition bf goal = true
  <-> goal = "fat_loss" /\ exists x, bf = Some x /\ PyFloat.above 25 x.
Proof.
  intros Hf. destruct bf as [x|]; cbn [suffix_condition optional_float_field] in *.
  - rewrite (PyFloatFacts.field_truthy x Hf). cbn [andb].
    rewrite andb_true_iff, String.eqb_eq, (PyFloatFacts.gt_int_25_field x Hf).
    split.
    + intros [Hg Hx]. split; [exact Hg|]. exists x. by split.
    + intros [Hg (y & [= <-] & Hy)]. by split.
  - split; [discriminate|]. by intros [_ (y & [=] & _)].
Qed.

(** ** Bounds on the base plans and on the adjustment *)

Lemma base_plan_bounds (goal : string) (item : ExerciseItem) :
  In item (base_plan goal) ->
  1 <= frequency_per_week item <= 3 /\ 0 < sets item.
Proof.
  unfold base_plan, select_base_plan.
  destruct (goal =? "fat_loss")%string;
    [|destruct (goal =? "muscle_gain")%string];
    cbn; intros Hin;
    repeat (destruct Hin as [<-|Hin]; [cbn; lia|]); destruct Hin.
Qed.

Lemma adjustment_bounds (activity : string) (v : Z) :
  1 <= v <= 3 -> 1 <= adjustment activity v <= 4.
Proof.
  unfold adjustment. intros Hv.
  destruct (literal ["sedentary"; "light"] activity); [lia|].
  destruct (literal ["athlete"] activity); lia.
Qed.

(** What [adjustment] is for each of the five activity levels. *)
Lemma adjustment_cases (activity : string) (v : Z) :
  ((activity = "sedentary" \/ activity = "light") ->
   adjustment activity v = Z.max 1 (v - 1))
  /\ (activity = "athlete" -> adjustment activity v = v + 1)
  /\ ((activity = "moderate" \/ activity = "active") ->
      adjustment activity v = v).
Proof.
  repeat split.
  - by intros [-> | ->].
  - by intros ->.
  - by intros [-> | ->].
Qed.

(** The frame of [with_frequency]. *)
Lemma map_with_frequency_frame (f : Z -> Z) (l : list ExerciseItem) :
  length (map (with_frequency f) l) = length l
  /\ map name (map (with_frequency f) l) = map name l
  /\ map sets (map (with_frequency f) l) = map sets l
  /\ map reps (map (with_frequency f) l) = map reps l.
Proof.
  rewrite length_map, !map_map. repeat split.
Qed.


(** ** The properties of the specification *)

(** C1. For every BodyMetric, valid or not, the base plan depends on
    the goal only: fat_loss gives the three items Treadmill Intervals,
    Full-Body Circuit, Core Stability; muscle_gain gives the four items
    Barbell Squat, Bench Press, Deadlift, Accessory; every other goal
    string, recomp and any value outside the enumeration alike, gives
    the three items of the recomp plan; each in this order and with the
    listed sets, reps and base frequencies. The base plan is what
    stage 1 of the endpoint leaves in [plan], for every store. *)
Theorem base_plan_by_goal {Store : Type} (m : BodyMetric) (st : Store) :
  select_base_plan (goal m) {| plan := []; store := st |}
  = ({| plan := base_plan (goal m); store := st |}, inr tt)
  /\ (goal m = "fat_loss" ->
      base_plan (goal m)
      = [ {| name := "Treadmill Intervals"; sets := 6;
             reps := "1 min fast / 2 min easy"; frequency_per_week := 3 |};
          {| name := "Full-Body Circuit"; sets := 4;
             reps := "12-15 reps"; frequency_per_week := 2 |};
          {| name := "Core Stability"; sets := 3;
             reps := "12-15 reps"; frequency_per_week := 2 |} ])
  /\ (goal m = "muscle_gain" ->
      base_plan (goal m)
      = [ {| name := "Barbell Squat"; sets := 5;
             reps := "5-8 reps"; frequency_per_week := 2 |};
          {| name := "Bench Press"; sets := 5;
             reps := "5-8 reps"; frequency_per_week := 2 |};
          {| name := "Deadlift"; sets := 3;
             reps := "3-5 reps"; frequency_per_week := 1 |};
          {| name := "Accessory (Rows, Press, Pull-ups)"; sets := 4;
             reps := "8-12 reps"; frequency_per_week := 2 |} ])
  /\ (goal m <> "fat_loss" -> goal m <> "muscle_gain" ->
      base_plan (goal m)
      = [ {| name := "Upper/Lower Split Strength"; sets := 4;
             reps := "6-10 reps"; frequency_per_week := 3 |};
          {| name := "Zone 2 Cardio"; sets := 1;
             reps := "30-40 mins"; frequency_per_week := 2 |};
          {| name := "Mobility & Core"; sets := 3;
             reps := "10-15 reps"; frequency_per_week := 2 |} ]).
Proof.
  split; [apply (select_base_plan_run (goal m) {| plan := []; store := st |})|].
  repeat split.
  - intros ->. reflexivity.
  - intros ->. reflexivity.
  - intros Hfat Hmuscle. unfold base_plan, select_base_plan.
    apply String.eqb_neq in Hfat, Hmuscle. rewrite Hfat, Hmuscle. reflexivity.
Qed.

Lemma base_plan_by_goal_witness :
  valid_BodyMetric unknown_goal_metrics = false
  /\ base_plan (goal example_metrics)
     = [ {| name := "Treadmill Intervals"; sets := 6;
            reps := "1 min fast / 2 min easy"; frequency_per_week := 3 |};
         {| name := "Full-Body Circuit"; sets := 4;
            reps := "12-15 reps"; frequency_per_week := 2 |};
         {| name := "Core Stability"; sets := 3;
            reps := "12-15 reps"; frequency_per_week := 2 |} ]
  /\ select_base_plan (goal unknown_goal_metrics) {| plan := []; store := tt |}
     = ({| plan := base_plan (goal unknown_goal_metrics); store := tt |}, inr tt)
  /\ base_plan (goal unknown_goal_metrics)
     = [ {| name := "Upper/Lower Split Strength"; sets := 4;
            reps := "6-10 reps"; frequency_per_week := 3 |};
         {| name := "Zone 2 Cardio"; sets := 1;
            reps := "30-40 mins"; frequency_per_week := 2 |};
         {| name := "Mobility & Core"; sets := 3;
            reps := "10-15 reps"; frequency_per_week := 2 |} ].
Proof.
  split; [reflexivity|].
  destruct (base_plan_by_goal example_metrics tt) as (_ & Hfat & _).
  destruct (base_plan_by_goal unknown_goal_metrics tt) as (Hrun & _ & _ & Helse).
  split; [apply Hfat; reflexivity|].
  split; [exact Hrun|].
  apply Helse; discriminate.
Defined.

(** C2. For every valid BodyMetric, every storage layer and every item
    of the base plan, the frequency of the item at the same place of the
    returned plan is max(1, base - 1) when the activity level is
    sedentary or light, base + 1 when it is athlete, and the base
    frequency when it is moderate or active. *)
Theorem frequency_adjustment_by_activity {Store : Type}
    (create_document : string -> Document -> Store -> Store * (Exception + string))
    (m : BodyMetric) (st : Store) :
  valid_BodyMetric m = true ->
  exists rec,
    snd (recommend_plan create_document m st) = Returned rec
    /\ length (weekly_plan rec) = length (base_plan (goal m))
    /\ forall (i : nat) (base : ExerciseItem),
        base_plan (goal m) !! i = Some base ->
        exists item,
          weekly_plan rec !! i = Some item
          /\ ((activity_level m = "sedentary" \/ activity_level m = "light") ->
              frequency_per_week item = Z.max 1 (frequency_per_week base - 1))
          /\ (activity_level m = "athlete" ->
              frequency_per_week item = frequency_per_week base + 1)
          /\ ((activity_level m = "moderate" \/ activity_level m = "active") ->
              frequency_per_week item = frequency_per_week base).
Proof.
  intros _. exists (recommendation_of m). split; [apply recommend_plan_run|].
  cbn [recommendation_of weekly_plan]. split; [apply length_map|].
  intros i base Hbase. exists (with_frequency (adjustment (activity_level m)) base).
  split.
  - change (map ?f ?l) with (f <$> l). by rewrite list_lookup_fmap, Hbase.
  - cbn [with_frequency frequency_per_week]. apply adjustment_cases.
Qed.

Lemma frequency_adjustment_by_activity_witness :
  valid_BodyMetric example_metrics = true
  /\ (exists rec,
    snd (recommend_plan storage_down example_metrics tt) = Returned rec
    /\ length (weekly_plan rec) = length (base_plan (goal example_metrics))
    /\ forall (i : nat) (base : ExerciseItem),
        base_plan (goal example_metrics) !! i = Some base ->
        exists item,
          weekly_plan rec !! i = Some item
          /\ ((activity_level example_metrics = "sedentary"
               \/ activity_level example_metrics = "light") ->
              frequency_per_week item = Z.max 1 (frequency_per_week base - 1))
          /\ (activity_level example_metrics = "athlete" ->
              frequency_per_week item = frequency_per_week base + 1)
          /\ ((activity_level example_metrics = "moderate"
               \/ activity_level example_metrics = "active") ->
              frequency_per_week item = frequency_per_week base)).
Proof.
  split; [reflexivity|].
  apply (frequency_adjustment_by_activity storage_down example_metrics tt). reflexivity.
Defined.

(** C3. For every valid BodyMetric and every storage layer, the summary
    of the returned Recommendation is the base sentence followed by the
    fat-loss suffix when the goal is fat_loss and body_fat_pct is
    present and greater than 25, and the base sentence alone otherwise;
    a body_fat_pct of exactly 25 gives the base sentence alone; there is
    no third summary. *)
Theorem summary_suffix_iff {Store : Type}
    (create_document : string -> Document -> Store -> Store * (Exception + string))
    (m : BodyMetric) (st : Store) :
  valid_BodyMetric m = true ->
  exists rec,
    snd (recommend_plan create_document m st) = Returned rec
    /\ ((goal m = "fat_loss"
         /\ exists x, body_fat_pct m = Some x /\ PyFloat.above 25 x) ->
        summary rec
        = "Personalized plan generated based on your goal and activity level. Focus on sustainable deficit, prioritize sleep and steps.")
    /\ (~ (goal m = "fat_loss"
           /\ exists x, body_fat_pct m = Some x /\ PyFloat.above 25 x) ->
        summary rec
        = "Personalized plan generated based on your goal and activity level.")
    /\ (forall x q, body_fat_pct m = Some x -> PyFloat.to_Q x = Some q ->
                    (q == inject_Z 25)%Q ->
        summary rec
        = "Personalized plan generated based on your goal and activity level.")
    /\ (summary rec
        = "Personalized plan generated based on your goal and activity level."
        \/ summary rec
           = "Personalized plan generated based on your goal and activity level. Focus on sustainable deficit, prioritize sleep and steps.").
Proof.
  intros Hvalid. exists (recommendation_of m). split; [apply recommend_plan_run|].
  assert (Hbf : optional_float_field 3 60 (body_fat_pct m) = true).
  { unfold valid_BodyMetric in Hvalid.
    repeat (apply andb_true_iff in Hvalid as [Hvalid ?]). assumption. }
  pose proof (suffix_condition_iff (body_fat_pct m) (goal m) Hbf) as Hiff.
  cbn [recommendation_of summary]. unfold build_summary.
  destruct (suffix_condition (body_fat_pct m) (goal m)).
  - assert (Hcond : goal m = "fat_loss"
                    /\ exists x, body_fat_pct m = Some x /\ PyFloat.above 25 x)
      by (by apply Hiff).
    repeat split.
    + intros Hno. by destruct Hno.
    + intros x q Hx Hq Heq. exfalso.
      destruct Hcond as [_ (y & Hy & q' & Hq' & Hlt)].
      rewrite Hx in Hy. injection Hy as <-. rewrite Hq in Hq'. injection Hq' as <-.
      rewrite Heq in Hlt. exact (Qlt_irrefl _ Hlt).
    + by right.
  - assert (Hcond : ~ (goal m = "fat_loss"
                       /\ exists x, body_fat_pct m = Some x /\ PyFloat.above 25 x)).
    { intros Hc. apply Hiff in Hc. discriminate Hc. }
    repeat split.
    + intros Hc. by destruct Hcond.
    + by left.
Qed.

Lemma summary_suffix_iff_witness :
  valid_BodyMetric example_metrics = true
  /\ exists rec,
      snd (recommend_plan storage_counting example_metrics 0%nat) = Returned rec
      /\ summary rec
         = "Personalized plan generated based on your goal and activity level. Focus on sustainable deficit, prioritize sleep and steps.".
Proof.
  split; [reflexivity|].
  destruct (summary_suffix_iff storage_counting example_metrics 0%nat)
    as (rec & Hrec & Hsuffix & _); [reflexivity|].
  exists rec. split; [exact Hrec|]. apply Hsuffix.
  split; [reflexivity|].
  exists (PyFloat.of_int 28). split; [reflexivity|].
  exists (7881299347898368 # 281474976710656)%Q.
  split; vm_compute; reflexivity.
Defined.

(** C4. For every valid BodyMetric and every storage layer, every item
    of the returned weekly plan has a frequency of at least 1. *)
Theorem frequency_at_least_one {Store : Type}
    (create_document : string -> Document -> Store -> Store * (Exception + string))
    (m : BodyMetric) (st : Store) :
  valid_BodyMetric m = true ->
  exists rec,
    snd (recommend_plan create_document m st) = Returned rec
    /\ forall item, In item (weekly_plan rec) -> 1 <= frequency_per_week item.
Proof.
  intros _. exists (recommendation_of m). split; [apply recommend_plan_run|].
  cbn [recommendation_of weekly_plan]. intros item Hin.
  apply in_map_iff in Hin as (base & <- & Hbase).
  apply base_plan_bounds in Hbase as [Hfreq _].
  cbn [with_frequency frequency_per_week].
  pose proof (adjustment_bounds (activity_level m) _ Hfreq). lia.
Qed.

Lemma frequency_at_least_one_witness :
  valid_BodyMetric example_metrics = true
  /\ (exists rec,
    snd (recommend_plan storage_down example_metrics tt) = Returned rec
    /\ forall item, In item (weekly_plan rec) -> 1 <= frequency_per_week item).
Proof.
  split; [reflexivity|].
  apply (frequency_at_least_one storage_down example_metrics tt). reflexivity.
Defined.

(** C5. For every valid BodyMetric and every storage layer, the returned
    plan has as many items as the base plan of the goal, in the same
    order, with the same name, sets and reps: the adjustment only
    changes frequencies. *)
Theorem adjustment_keeps_items {Store : Type}
    (create_document : string -> Document -> Store -> Store * (Exception + string))
    (m : BodyMetric) (st : Store) :
  valid_BodyMetric m = true ->
  exists rec,
    snd (recommend_plan create_document m st) = Returned rec
    /\ length (weekly_plan rec) = length (base_plan (goal m))
    /\ map name (weekly_plan rec) = map name (base_plan (goal m))
    /\ map sets (weekly_plan rec) = map sets (base_plan (goal m))
    /\ map reps (weekly_plan rec) = map reps (base_plan (goal m)).
Proof.
  intros _. exists (recommendation_of m). split; [apply recommend_plan_run|].
  cbn [recommendation_of weekly_plan]. apply map_with_frequency_frame.
Qed.

Lemma adjustment_keeps_items_witness :
  valid_BodyMetric example_metrics = true
  /\ (exists rec,
    snd (recommend_plan storage_counting example_metrics 7%nat) = Returned rec
    /\ length (weekly_plan rec) = length (base_plan (goal example_metrics))
    /\ map name (weekly_plan rec) = map name (base_plan (goal example_metrics))
    /\ map sets (weekly_plan rec) = map sets (base_plan (goal example_metrics))
    /\ map reps (weekly_plan rec) = map reps (base_plan (goal example_metrics))).
Proof.
  split; [reflexivity|].
  apply (adjustment_keeps_items storage_counting example_metrics 7%nat). reflexivity.
Defined.

(** C6. For the request female, 30, 165 cm, 70 kg, sedentary, fat_loss,
    body fat 28, the endpoint returns, for every storage layer, the plan
    Treadmill Intervals (2 per week), Full-Body Circuit (1), Core
    Stability (1) and the summary with the fat-loss suffix. *)
Theorem example_end_to_end {Store : Type}
    (create_document : string -> Document -> Store -> Store * (Exception + string))
    (st : Store) :
  snd (recommend_plan create_document example_metrics st)
  = Returned
      {| body_metric_id := None;
         summary := "Personalized plan generated based on your goal and activity level. Focus on sustainable deficit, prioritize sleep and steps.";
         weekly_plan :=
           [ {| name := "Treadmill Intervals"; sets := 6;
                reps := "1 min fast / 2 min easy"; frequency_per_week := 2 |};
             {| name := "Full-Body Circuit"; sets := 4;
                reps := "12-15 reps"; frequency_per_week := 1 |};
             {| name := "Core Stability"; sets := 3;
                reps := "12-15 reps"; frequency_per_week := 1 |} ] |}.
Proof.
  rewrite recommend_plan_run. vm_compute. reflexivity.
Qed.

(** C7. For every valid BodyMetric, the returned Recommendation has no
    body_metric_id, whatever the storage layer does and whether or not
    it handed out an id. *)
Theorem body_metric_id_is_None {Store : Type}
    (create_document : string -> Document -> Store -> Store * (Exception + string))
    (m : BodyMetric) (st : Store) :
  valid_BodyMetric m = true ->
  exists rec,
    snd (recommend_plan create_document m st) = Returned rec
    /\ body_metric_id rec = None.
Proof.
  intros _. exists (recommendation_of m). split; [apply recommend_plan_run|].
  reflexivity.
Qed.

Lemma body_metric_id_is_None_witness :
  valid_BodyMetric example_metrics = true
  /\ (exists rec,
    snd (recommend_plan storage_counting example_metrics 0%nat) = Returned rec
    /\ body_metric_id rec = None).
Proof.
  split; [reflexivity|].
  apply (body_metric_id_is_None storage_counting example_metrics 0%nat). reflexivity.
Defined.

(** C8. For every valid BodyMetric, every storage layer and every state
    of it, the endpoint returns a Recommendation: it never raises the
    HTTPException of status 500, nor any other. *)
Theorem recommend_plan_never_fails {Store : Type}
    (create_document : string -> Document -> Store -> Store * (Exception + string))
    (m : BodyMetric) (st : Store) :
  valid_BodyMetric m = true ->
  (exists rec, snd (recommend_plan create_document m st) = Returned rec)
  /\ forall status_code detail,
      snd (recommend_plan create_document m st) <> HTTPException status_code detail.
Proof.
  intros _. rewrite recommend_plan_run. split; [by eexists|]. discriminate.
Qed.

Lemma recommend_plan_never_fails_witness :
  valid_BodyMetric example_metrics = true
  /\ ((exists rec, snd (recommend_plan storage_down example_metrics tt) = Returned rec)
  /\ forall status_code detail,
      snd (recommend_plan storage_down example_metrics tt)
      <> HTTPException status_code detail).
Proof.
  split; [reflexivity|].
  apply (recommend_plan_never_fails storage_down example_metrics tt). reflexivity.
Defined.

(** C9. For every valid BodyMetric, any two storage layers (one may
    store, the other may raise at either call) in any states lead to the
    same response, which is a returned Recommendation: a failure of the
    best-effort save changes nothing and reaches nobody. *)
Theorem storage_failure_isolated {Store1 Store2 : Type}
    (create_document1 : string -> Document -> Store1 -> Store1 * (Exception + string))
    (create_document2 : string -> Document -> Store2 -> Store2 * (Exception + string))
    (m : BodyMetric) (st1 : Store1) (st2 : Store2) :
  valid_BodyMetric m = true ->
  exists rec,
    snd (recommend_plan create_document1 m st1) = Returned rec
    /\ snd (recommend_plan create_document2 m st2) = Returned rec.
Proof.
  intros _. exists (recommendation_of m). split; apply recommend_plan_run.
Qed.

Lemma storage_failure_isolated_witness :
  valid_BodyMetric example_metrics = true
  /\ (exists rec,
    snd (recommend_plan storage_counting example_metrics 0%nat) = Returned rec
    /\ snd (recommend_plan storage_down example_metrics tt) = Returned rec).
Proof.
  split; [reflexivity|].
  apply (storage_failure_isolated storage_counting storage_down example_metrics 0%nat tt). reflexivity.
Defined.

(** C10. For every valid BodyMetric and every storage layer, every item
    of the returned weekly plan has a frequency between 1 and 4 and a
    positive number of sets. *)
Theorem frequency_and_sets_bounds {Store : Type}
    (create_document : string -> Document -> Store -> Store * (Exception + string))
    (m : BodyMetric) (st : Store) :
  valid_BodyMetric m = true ->
  exists rec,
    snd (recommend_plan create_document m st) = Returned rec
    /\ forall item, In item (weekly_plan rec) ->
                    1 <= frequency_per_week item <= 4 /\ 0 < sets item.
Proof.
  intros _. exists (recommendation_of m). split; [apply recommend_plan_run|].
  cbn [recommendation_of weekly_plan]. intros item Hin.
  apply in_map_iff in Hin as (base & <- & Hbase).
  apply base_plan_bounds in Hbase as [Hfreq Hsets].
  cbn [with_frequency frequency_per_week sets].
  split; [by apply adjustment_bounds | exact Hsets].
Qed.

Lemma frequency_and_sets_bounds_witness :
  valid_BodyMetric example_metrics = true
  /\ (exists rec,
    snd (recommend_plan storage_down example_metrics tt) = Returned rec
    /\ forall item, In item (weekly_plan rec) ->
                    1 <= frequency_per_week item <= 4 /\ 0 < sets item).
Proof.
  split; [reflexivity|].
  apply (frequency_and_sets_bounds storage_down example_metrics tt). reflexivity.
Defined.

(** ** Further properties of the endpoints *)

(** *** What the endpoint does to the storage layer *)

Section StorageEffects.

Context {Store : Type}.
Variable create_document :
  string -> Document -> Store -> Store * (Exception + string).

(** The store that the two calls of lines 175-176 leave. *)
Lemma store_best_effort_store metrics rec (env : Env (Store := Store)) :
  store_best_effort create_document metrics rec env
  = ({| plan := plan env;
        store :=
          match create_document "bodymetric" (BodyMetricDoc metrics) (store env) with
          | (st1, inl _) => st1
          | (st1, inr mid) =>
              fst (create_document "recommendation"
                     (RecommendationDoc mid (summary rec) (weekly_plan rec)) st1)
          end |}, inr tt).
Proof.
  unfold store_best_effort, try_except, bind, call_create_document, ret.
  destruct (create_document "bodymetric" _ (store env)) as [st1 [e|mid]]; cbn.
  - reflexivity.
  - destruct (create_document "recommendation" _ st1) as [st2 [e|rid]]; reflexivity.
Qed.

Lemma recommend_plan_store metrics st :
  fst (recommend_plan create_document metrics st)
  = match create_document "bodymetric" (BodyMetricDoc metrics) st with
    | (st1, inl _) => st1
    | (st1, inr mid) =>
        fst (create_document "recommendation"
               (RecommendationDoc mid (summary (recommendation_of metrics))
                  (weekly_plan (recommendation_of metrics))) st1)
    end.
Proof.
  unfold recommend_plan, recommend_plan_body, bind.
  rewrite select_base_plan_run. cbn [plan store app].
  rewrite adjust_frequency_run. cbn [plan store].
  rewrite store_best_effort_store. reflexivity.
Qed.

End StorageEffects.

(** X1. The response of [recommend_plan] depends on the goal, the
    activity level and the body fat only: two requests that agree on
    these three fields get the same response, whatever their other
    fields, the storage layers and their states. *)
Theorem response_depends_on_three_fields {Store1 Store2 : Type}
    (create_document1 : string -> Document -> Store1 -> Store1 * (Exception + string))
    (create_document2 : string -> Document -> Store2 -> Store2 * (Exception + string))
    (m1 m2 : BodyMetric) (st1 : Store1) (st2 : Store2) :
  goal m1 = goal m2 ->
  activity_level m1 = activity_level m2 ->
  body_fat_pct m1 = body_fat_pct m2 ->
  snd (recommend_plan create_document1 m1 st1)
  = snd (recommend_plan create_document2 m2 st2).
Proof.
  intros Hgoal Hactivity Hbf. rewrite !recommend_plan_run.
  unfold recommendation_of. by rewrite Hgoal, Hactivity, Hbf.
Qed.

Lemma response_depends_on_three_fields_witness :
  example_metrics <> example_metrics_other
  /\ snd (recommend_plan storage_down example_metrics tt)
     = snd (recommend_plan storage_counting example_metrics_other 3%nat).
Proof.
  split; [discriminate|].
  apply (response_depends_on_three_fields storage_down storage_counting
           example_metrics example_metrics_other tt 3%nat); reflexivity.
Defined.

(** X2. The store after [recommend_plan]: when the save of the metrics
    raises, it is the store that this call left, and no recommendation
    is saved; when it returns an id, it is the store left by saving, in
    the collection "recommendation", one document that carries this id
    and the summary and plan of the returned Recommendation, whether
    this second call raises or not. *)
Theorem store_after_recommend_plan {Store : Type}
    (create_document : string -> Document -> Store -> Store * (Exception + string))
    (m : BodyMetric) (st : Store) :
  exists rec,
    snd (recommend_plan create_document m st) = Returned rec
    /\ (forall st1 e,
          create_document "bodymetric" (BodyMetricDoc m) st = (st1, inl e) ->
          fst (recommend_plan create_document m st) = st1)
    /\ (forall st1 mid,
          create_document "bodymetric" (BodyMetricDoc m) st = (st1, inr mid) ->
          fst (recommend_plan create_document m st)
          = fst (create_document "recommendation"
                   (RecommendationDoc mid (summary rec) (weekly_plan rec)) st1)).
Proof.
  exists (recommendation_of m). split; [apply recommend_plan_run|].
  split; intros st1 r Hcall; rewrite recommend_plan_store, Hcall; reflexivity.
Qed.

Lemma store_after_recommend_plan_witness :
  fst (recommend_plan storage_logging example_metrics [])
  = [("bodymetric", BodyMetricDoc example_metrics)].
Proof.
  destruct (store_after_recommend_plan storage_logging example_metrics [])
    as (rec & _ & _ & Hsaved).
  rewrite (Hsaved [("bodymetric", BodyMetricDoc example_metrics)] "0");
    vm_compute; reflexivity.
Defined.

(** *** The adjustment on any plan *)

(** X3. On every plan and for every activity string, the adjustment of
    lines 155-161 returns normally (no subscript is out of range),
    leaves the store alone, and keeps the number of items and their
    names, sets and reps in order. *)
Theorem adjust_frequency_any_plan {Store : Type} (activity : string)
    (env : Env (Store := Store)) :
  exists l,
    adjust_frequency activity env = ({| plan := l; store := store env |}, inr tt)
    /\ length l = length (plan env)
    /\ map name l = map name (plan env)
    /\ map sets l = map sets (plan env)
    /\ map reps l = map reps (plan env).
Proof.
  exists (map (with_frequency (adjustment activity)) (plan env)).
  split; [apply adjust_frequency_run | apply map_with_frequency_frame].
Qed.

(** X4. For the activity levels sedentary and light the loop of lines
    157-158 leaves every frequency at 1 or more on every plan, also one
    whose frequencies were zero or negative, and lowers a frequency of 2
    or more by exactly one. *)
Theorem sedentary_floor_any_plan {Store : Type} (activity : string)
    (env : Env (Store := Store)) :
  literal ["sedentary"; "light"] activity = true ->
  exists l,
    adjust_frequency activity env = ({| plan := l; store := store env |}, inr tt)
    /\ (forall item, In item l -> 1 <= frequency_per_week item)
    /\ (forall i old new,
          plan env !! i = Some old -> l !! i = Some new ->
          2 <= frequency_per_week old ->
          frequency_per_week new = frequency_per_week old - 1).
Proof.
  intros Hlow. exists (map (with_frequency (adjustment activity)) (plan env)).
  split; [apply adjust_frequency_run|].
  unfold adjustment. rewrite Hlow. split.
  - intros item (old & <- & _)%in_map_iff. cbn. lia.
  - intros i old new Hold. change (map ?f ?l) with (f <$> l).
    rewrite list_lookup_fmap, Hold. cbn. intros [= <-] Hge. cbn. lia.
Qed.

Lemma sedentary_floor_any_plan_witness :
  exists l,
    adjust_frequency "light"
      {| plan := [ {| name := "Rest"; sets := 0; reps := "";
                      frequency_per_week := -3 |};
                   {| name := "Walk"; sets := 1; reps := "20 mins";
                      frequency_per_week := 7 |} ];
         store := tt |}
    = ({| plan := l; store := tt |}, inr tt)
    /\ map frequency_per_week l = [1; 6].
Proof.
  destruct (sedentary_floor_any_plan "light"
              {| plan := [ {| name := "Rest"; sets := 0; reps := "";
                              frequency_per_week := -3 |};
                           {| name := "Walk"; sets := 1; reps := "20 mins";
                              frequency_per_week := 7 |} ];
                 store := tt |} eq_refl) as (l & Hrun & _).
  exists l. split; [exact Hrun|].
  vm_compute in Hrun. injection Hrun as <-. reflexivity.
Defined.

(** X5. For one goal, a more active level never gives a lower
    frequency: item by item, the plan of a sedentary or light client is
    at most the plan of any other client, and the plan of an athlete is
    strictly above the plan of every client who is not one. *)
Theorem frequency_ordered_by_activity {Store : Type}
    (create_document : string -> Document -> Store -> Store * (Exception + string))
    (m1 m2 : BodyMetric) (st1 st2 : Store) :
  goal m1 = goal m2 ->
  exists rec1 rec2,
    snd (recommend_plan create_document m1 st1) = Returned rec1
    /\ snd (recommend_plan create_document m2 st2) = Returned rec2
    /\ forall i item1 item2,
        weekly_plan rec1 !! i = Some item1 ->
        weekly_plan rec2 !! i = Some item2 ->
        ((activity_level m1 = "sedentary" \/ activity_level m1 = "light") ->
         frequency_per_week item1 <= frequency_per_week item2)
        /\ (activity_level m2 = "athlete" -> activity_level m1 <> "athlete" ->
            frequency_per_week item1 < frequency_per_week item2).
Proof.
  intros Hgoal. exists (recommendation_of m1), (recommendation_of m2).
  split; [apply recommend_plan_run|]. split; [apply recommend_plan_run|].
  cbn [recommendation_of weekly_plan]. rewrite <- Hgoal.
  intros i item1 item2. change (map ?f ?l) with (f <$> l).
  rewrite !list_lookup_fmap.
  destruct (base_plan (goal m1) !! i) as [base|] eqn:Hbase; [|discriminate].
  cbn. intros [= <-] [= <-]. cbn.
  assert (Hfreq : 1 <= frequency_per_week base <= 3).
  { eapply base_plan_bounds, list_elem_of_In, list_elem_of_lookup_2, Hbase. }
  split.
  - intros Hlow.
    assert (adjustment (activity_level m1) (frequency_per_week base)
            = Z.max 1 (frequency_per_week base - 1)) as ->
      by (by apply adjustment_cases).
    unfold adjustment.
    destruct (literal ["sedentary"; "light"] (activity_level m2)); [lia|].
    destruct (literal ["athlete"] (activity_level m2)); lia.
  - intros Hathlete Hnot.
    assert (adjustment (activity_level m2) (frequency_per_week base)
            = frequency_per_week base + 1) as ->
      by (by apply adjustment_cases).
    unfold adjustment.
    destruct (literal ["sedentary"; "light"] (activity_level m1)); [lia|].
    destruct (literal ["athlete"] (activity_level m1)) eqn:Hlit; [|lia].
    exfalso. apply Hnot. cbn in Hlit. rewrite orb_false_r in Hlit.
    by apply String.eqb_eq.
Qed.

Lemma frequency_ordered_by_activity_witness :
  goal example_metrics = goal unvalidated_metrics
  /\ exists rec1 rec2,
      snd (recommend_plan storage_down example_metrics tt) = Returned rec1
      /\ snd (recommend_plan storage_down unvalidated_metrics tt) = Returned rec2
      /\ forall i item1 item2,
          weekly_plan rec1 !! i = Some item1 ->
          weekly_plan rec2 !! i = Some item2 ->
          ((activity_level example_metrics = "sedentary"
            \/ activity_level example_metrics = "light") ->
           frequency_per_week item1 <= frequency_per_week item2)
          /\ (activity_level unvalidated_metrics = "athlete" ->
              activity_level example_metrics <> "athlete" ->
              frequency_per_week item1 < frequency_per_week item2).
Proof.
  split; [reflexivity|].
  apply (frequency_ordered_by_activity storage_down example_metrics
           unvalidated_metrics tt tt). reflexivity.
Defined.

(** *** The summary without validation *)

(** On every binary64 value, the test [bf > 25] holds for plus
    infinity and for the numbers above 25, and for nothing else: not
    for a NaN, a zero, a negative number or minus infinity. *)
Lemma gt_int_25_binary64 (x : float) :
  PyFloat.is_binary64 x = true ->
  PyFloat.gt_int x 25 = true
  <-> x = S754_infinity false \/ PyFloat.above 25 x.
Proof.
  intros Hvalid. destruct x as [s|s| |s m e].
  - split; [discriminate|]. intros [[=]|(q & [= <-] & Hq)]. discriminate Hq.
  - destruct s.
    + split; [discriminate|]. intros [[=]|(q & [=] & _)].
    + split; [by left|reflexivity].
  - split; [discriminate|]. intros [[=]|(q & [=] & _)].
  - rewrite (PyFloatFacts.gt_int_25_finite s m e Hvalid).
    split; [by right|]. by intros [[=]|Habove].
Qed.

Lemma gt_int_25_truthy (x : float) :
  PyFloat.gt_int x 25 = true -> PyFloat.truthy x = true.
Proof. destruct x; [discriminate|reflexivity..]. Qed.

(** X6. Without any validation of the ranges: for every request whose
    body fat is absent or a binary64 value of any kind, and every
    storage layer, the summary has the suffix when the goal is exactly
    "fat_loss" and the body fat is plus infinity or a number above 25,
    and is the base sentence otherwise; a NaN, a zero, a negative value
    and an absent value never give the suffix. *)
Theorem summary_for_any_binary64 {Store : Type}
    (create_document : string -> Document -> Store -> Store * (Exception + string))
    (m : BodyMetric) (st : Store) :
  is_optional_binary64 (body_fat_pct m) = true ->
  exists rec,
    snd (recommend_plan create_document m st) = Returned rec
    /\ ((goal m = "fat_loss"
         /\ exists x, body_fat_pct m = Some x
                      /\ (x = S754_infinity false \/ PyFloat.above 25 x)) ->
        summary rec = base_summary +:+ fat_loss_suffix)
    /\ (~ (goal m = "fat_loss"
           /\ exists x, body_fat_pct m = Some x
                        /\ (x = S754_infinity false \/ PyFloat.above 25 x)) ->
        summary rec = base_summary).
Proof.
  intros Hbf. exists (recommendation_of m). split; [apply recommend_plan_run|].
  cbn [recommendation_of summary]. unfold build_summary.
  assert (Hiff : suffix_condition (body_fat_pct m) (goal m) = true
                 <-> goal m = "fat_loss"
                     /\ exists x, body_fat_pct m = Some x
                          /\ (x = S754_infinity false \/ PyFloat.above 25 x)).
  { destruct (body_fat_pct m) as [x|]; cbn [suffix_condition is_optional_binary64] in *.
    - pose proof (gt_int_25_binary64 x Hbf) as Hgt.
      pose proof (gt_int_25_truthy x) as Htruthy.
      split.
      + intros [[_ Hg]%andb_true_iff Hx]%andb_true_iff.
        split; [by apply String.eqb_eq|]. exists x. split; [reflexivity|by apply Hgt].
      + intros [Hg (y & [= <-] & Hy)]. apply Hgt in Hy.
        rewrite Hy, (Htruthy Hy). by apply String.eqb_eq in Hg as ->.
    - split; [discriminate|]. by intros [_ (y & [=] & _)]. }
  destruct (suffix_condition (body_fat_pct m) (goal m)).
  - split; [reflexivity|]. intros Hno. destruct Hno. by apply Hiff.
  - split; [|reflexivity]. intros Hyes. apply Hiff in Hyes. discriminate Hyes.
Qed.

Lemma summary_for_any_binary64_witness :
  valid_BodyMetric unvalidated_metrics = false
  /\ exists rec,
      snd (recommend_plan storage_down unvalidated_metrics tt) = Returned rec
      /\ summary rec = base_summary +:+ fat_loss_suffix.
Proof.
  split; [reflexivity|].
  destruct (summary_for_any_binary64 storage_down unvalidated_metrics tt)
    as (rec & Hrec & Hsuffix & _); [reflexivity|].
  exists rec. split; [exact Hrec|]. apply Hsuffix.
  split; [reflexivity|]. exists (S754_infinity false). split; [reflexivity|by left].
Defined.

(** X7. For every request at all, validated or not, and every storage
    layer, [recommend_plan] returns a Recommendation; its plan has four
    items when the goal is exactly "muscle_gain" and three items for
    every other goal string. *)
Theorem plan_size_for_any_request {Store : Type}
    (create_document : string -> Document -> Store -> Store * (Exception + string))
    (m : BodyMetric) (st : Store) :
  exists rec,
    snd (recommend_plan create_document m st) = Returned rec
    /\ (goal m = "muscle_gain" -> length (weekly_plan rec) = 4%nat)
    /\ (goal m <> "muscle_gain" -> length (weekly_plan rec) = 3%nat).
Proof.
  exists (recommendation_of m). split; [apply recommend_plan_run|].
  cbn [recommendation_of weekly_plan]. rewrite length_map.
  unfold base_plan, select_base_plan. split.
  - intros ->. reflexivity.
  - intros Hgoal%String.eqb_neq. rewrite Hgoal.
    by destruct (goal m =? "fat_loss")%string.
Qed.

(** *** [submit_metrics] against [recommend_plan] *)

(** X8. When the storage layer raises [e] on the save of the metrics,
    [submit_metrics] raises HTTPException 500 with the detail [str(e)],
    whereas [recommend_plan] returns its Recommendation; both leave the
    store as the failed call left it. When the save returns an id,
    [submit_metrics] answers ok with exactly this id. *)
Theorem submit_metrics_reports_what_recommend_plan_hides {Store : Type}
    (create_document : string -> Document -> Store -> Store * (Exception + string))
    (m : BodyMetric) (st : Store) :
  (forall st1 e,
     create_document "bodymetric" (BodyMetricDoc m) st = (st1, inl e) ->
     submit_metrics create_document m st = (st1, HTTPException 500 (str e))
     /\ exists rec, recommend_plan create_document m st = (st1, Returned rec))
  /\ (forall st1 mid,
        create_document "bodymetric" (BodyMetricDoc m) st = (st1, inr mid) ->
        submit_metrics create_document m st
        = (st1, Returned {| CreatedResponse.ok := true;
                            CreatedResponse.id := mid |})).
Proof.
  split.
  - intros st1 e Hcall. unfold submit_metrics. rewrite Hcall.
    split; [reflexivity|]. exists (recommendation_of m).
    rewrite (surjective_pairing (recommend_plan create_document m st)).
    by rewrite recommend_plan_run, recommend_plan_store, Hcall.
  - intros st1 mid Hcall. unfold submit_metrics. by rewrite Hcall.
Qed.

Lemma submit_metrics_reports_what_recommend_plan_hides_witness :
  submit_metrics storage_down example_metrics tt
  = (tt, HTTPException 500 "Database not available")
  /\ exists rec, recommend_plan storage_down example_metrics tt = (tt, Returned rec).
Proof.
  destruct (submit_metrics_reports_what_recommend_plan_hides
              storage_down example_metrics tt) as [Hfail _].
  exact (Hfail tt (StorageException "Database not available") eq_refl).
Defined.

(** *** Validation of a request *)

Lemma required_field_Some {A} (check : A -> bool) (x : option A) (v : A) :
  required_field check x = Some v <-> x = Some v /\ check v = true.
Proof.
  unfold required_field. destruct x as [w|]; [|by split; [|intros []]].
  destruct (check w) eqn:Hw; split.
  - by intros [= <-].
  - by intros [[= <-] _].
  - discriminate.
  - intros [[= <-] Hv]. congruence.
Qed.

Lemma optional_field_Some (lo hi : Z) (x v : option float) :
  optional_field (float_field lo hi) x = Some v
  <-> x = v /\ optional_float_field lo hi v = true.
Proof.
  unfold optional_field, optional_float_field. destruct x as [w|].
  - destruct (float_field lo hi w) eqn:Hw; split.
    + by intros [= <-].
    + by intros [<- _].
    + discriminate.
    + intros [<- Hv]. congruence.
  - split; [by intros [= <-]|by intros [<- _]].
Qed.

Lemma defaulted_field_Some {A} (default : A) (check : A -> bool)
      (x : option A) (v : A) :
  defaulted_field default check x = Some v
  <-> (x = Some v /\ check v = true) \/ (x = None /\ v = default).
Proof.
  unfold defaulted_field. destruct x as [w|].
  - destruct (check w) eqn:Hw; split.
    + intros [= <-]. by left.
    + by intros [[[= <-] _]|[[=] _]].
    + discriminate.
    + intros [[[= <-] Hv]|[[=] _]]. congruence.
  - split; [intros [= <-]; by right|]. by intros [[[=] _]|[_ ->]].
Qed.

(** What the validation accepts, field by field. *)
Lemma BodyMetric_validate_Some (r : BodyMetricInput) (m : BodyMetric) :
  BodyMetric_validate r = Some m ->
  (in_gender r = Some (gender m) /\ literal ["male"; "female"] (gender m) = true)
  /\ (in_age r = Some (age m) /\ (12 <=? age m) && (age m <=? 90) = true)
  /\ (in_height_cm r = Some (height_cm m)
      /\ float_field 120 230 (height_cm m) = true)
  /\ (in_weight_kg r = Some (weight_kg m)
      /\ float_field 30 250 (weight_kg m) = true)
  /\ (in_waist_cm r = waist_cm m /\ optional_float_field 40 200 (waist_cm m) = true)
  /\ (in_hip_cm r = hip_cm m /\ optional_float_field 40 200 (hip_cm m) = true)
  /\ (in_neck_cm r = neck_cm m /\ optional_float_field 20 60 (neck_cm m) = true)
  /\ (in_body_fat_pct r = body_fat_pct m
      /\ optional_float_field 3 60 (body_fat_pct m) = true)
  /\ ((in_activity_level r = Some (activity_level m)
       /\ literal ["sedentary"; "light"; "moderate"; "active"; "athlete"]
            (activity_level m) = true)
      \/ (in_activity_level r = None /\ activity_level m = "moderate"))
  /\ ((in_goal r = Some (goal m)
       /\ literal ["fat_loss"; "muscle_gain"; "recomp"] (goal m) = true)
      \/ (in_goal r = None /\ goal m = "recomp"))
  /\ in_member_id r = member_id m.
Proof.
  unfold BodyMetric_validate. intros H.
  repeat match type of H with
         | (mbind _ ?c = Some _) =>
             let v := fresh "v" in let E := fresh "E" in
             destruct c as [v|] eqn:E; [cbn [mbind option_bind] in H|discriminate H]
         end.
  injection H as <-. cbn.
  apply required_field_Some in E, E0, E1, E2.
  apply optional_field_Some in E3, E4, E5, E6.
  apply defaulted_field_Some in E7, E8.
  repeat split; tauto.
Qed.

(** X9. Every model that the validation of a request produces
    satisfies all the constraints of [BodyMetric], also when the
    activity level or the goal was missing and their defaults, which
    pydantic does not check, were taken. *)
Theorem BodyMetric_validate_sound (r : BodyMetricInput) (m : BodyMetric) :
  BodyMetric_validate r = Some m -> valid_BodyMetric m = true.
Proof.
  intros H. apply BodyMetric_validate_Some in H
    as ([_ Hg] & [_ Ha] & [_ Hh] & [_ Hw] & [_ Hwa] & [_ Hhi] & [_ Hn] & [_ Hbf]
        & Hact & Hgoal & _).
  unfold valid_BodyMetric. rewrite Hg, Ha, Hh, Hw, Hwa, Hhi, Hn, Hbf. cbn [andb].
  destruct Hact as [[_ ->]| [_ ->]], Hgoal as [[_ ->]| [_ ->]]; reflexivity.
Qed.

Lemma BodyMetric_validate_sound_witness :
  BodyMetric_validate minimal_input = Some minimal_metrics
  /\ valid_BodyMetric minimal_metrics = true.
Proof.
  split; [reflexivity|].
  apply (BodyMetric_validate_sound minimal_input minimal_metrics). reflexivity.
Defined.

(** X10. Conversely, a model that satisfies the constraints is accepted
    unchanged when all its fields are sent: validating the request that
    spells out a valid [BodyMetric] gives this [BodyMetric] back. *)
Theorem BodyMetric_validate_complete (m : BodyMetric) :
  valid_BodyMetric m = true ->
  BodyMetric_validate (BodyMetric_input m) = Some m.
Proof.
  unfold valid_BodyMetric. intros H.
  repeat (apply andb_true_iff in H as [H ?]).
  unfold BodyMetric_validate, BodyMetric_input. cbn -[literal float_field].
  unfold required_field, defaulted_field, optional_field.
  repeat match goal with
         | Hc : ?c = true |- context [if ?c then _ else _] => rewrite Hc
         end.
  cbn [mbind option_bind].
  assert (Hopt : forall lo hi (x : option float),
             optional_float_field lo hi x = true ->
             match x with
             | Some v => if float_field lo hi v then Some (Some v) else None
             | None => Some None
             end = Some x).
  { intros lo hi [v|] Hx; cbn in Hx; [by rewrite Hx|reflexivity]. }
  rewrite !Hopt by assumption. cbn [mbind option_bind].
  by destruct m.
Qed.

Lemma BodyMetric_validate_complete_witness :
  valid_BodyMetric example_metrics = true
  /\ BodyMetric_validate (BodyMetric_input example_metrics) = Some example_metrics.
Proof.
  split; [reflexivity|].
  apply (BodyMetric_validate_complete example_metrics). reflexivity.
Defined.

(** X11. A request that names neither a goal nor an activity level
    and passes validation gets, from every storage layer, the recomp
    plan with its base frequencies 3, 2, 2 and the base summary,
    whatever body fat it states. *)
Theorem defaults_give_the_recomp_plan {Store : Type}
    (create_document : string -> Document -> Store -> Store * (Exception + string))
    (r : BodyMetricInput) (m : BodyMetric) (st : Store) :
  in_goal r = None ->
  in_activity_level r = None ->
  BodyMetric_validate r = Some m ->
  snd (recommend_plan create_document m st)
  = Returned
      {| body_metric_id := None;
         summary := "Personalized plan generated based on your goal and activity level.";
         weekly_plan :=
           [ {| name := "Upper/Lower Split Strength"; sets := 4;
                reps := "6-10 reps"; frequency_per_week := 3 |};
             {| name := "Zone 2 Cardio"; sets := 1;
                reps := "30-40 mins"; frequency_per_week := 2 |};
             {| name := "Mobility & Core"; sets := 3;
                reps := "10-15 reps"; frequency_per_week := 2 |} ] |}.
Proof.
  intros Hgoal Hactivity Hvalid. apply BodyMetric_validate_Some in Hvalid
    as (_ & _ & _ & _ & _ & _ & _ & _ & Hact & Hg & _).
  destruct Hact as [[Hsome _]|[_ Hact]]; [congruence|].
  destruct Hg as [[Hsome _]|[_ Hg]]; [congruence|].
  rewrite recommend_plan_run. unfold recommendation_of, build_summary.
  rewrite Hact, Hg.
  assert (suffix_condition (body_fat_pct m) "recomp" = false) as ->.
  { destruct (body_fat_pct m) as [x|]; [|reflexivity].
    cbn. by rewrite andb_false_r. }
  reflexivity.
Qed.

Lemma defaults_give_the_recomp_plan_witness :
  in_goal minimal_input = None
  /\ in_activity_level minimal_input = None
  /\ BodyMetric_validate minimal_input = Some minimal_metrics
  /\ exists rec,
      snd (recommend_plan storage_counting minimal_metrics 0%nat) = Returned rec
      /\ map frequency_per_week (weekly_plan rec) = [3; 2; 2].
Proof.
  repeat (split; [reflexivity|]).
  eexists. split;
    [apply (defaults_give_the_recomp_plan storage_counting minimal_input
              minimal_metrics 0%nat); reflexivity|].
  reflexivity.
Defined.

(** *** The health check *)

(** X12. [test_database] reports the status "Connected" exactly when
    the database is initialised and listing its collections succeeded;
    it then returns the first ten collection names, in order, and in
    every other case no collection at all; the list never has more than
    ten names. *)
Theorem test_database_connected (d : Deployment) :
  (connection_status (test_database d) = "Connected"
   <-> exists names, db_list_collection_names d = Some (inr names))
  /\ (forall names,
        db_list_collection_names d = Some (inr names) ->
        collections (test_database d) = take 10 names)
  /\ (connection_status (test_database d) <> "Connected" ->
      collections (test_database d) = [])
  /\ (length (collections (test_database d)) <= 10)%nat.
Proof.
  unfold test_database.
  destruct (db_list_collection_names d) as [[e|names]|]; cbn.
  - repeat split; try discriminate; try lia. by intros (names & [=]).
  - repeat split; try done.
    + by exists names.
    + by intros ? [= <-].
    + rewrite length_take. lia.
  - repeat split; try discriminate; try lia. by intros (names & [=]).
Qed.

Lemma test_database_connected_witness :
  connection_status (test_database example_deployment) = "Connected"
  /\ collections (test_database example_deployment)
     = ["a"; "b"; "c"; "d"; "e"; "f"; "g"; "h"; "i"; "j"].
Proof.
  destruct (test_database_connected example_deployment) as (Hconn & Hnames & _).
  split.
  - apply Hconn. by eexists.
  - by rewrite (Hnames _ eq_refl).
Defined.



